(** * The doctor command of the gql.tada CLI

    A shallow embedding of
    [packages/cli-utils/src/commands/doctor/runner.ts]: the version
    comparator [semiverComply], the pacing [delay] and the asynchronous
    generator [run], together with the properties of the event stream
    that the command produces. *)

From Stdlib Require Import ZArith NArith Ascii String List Lia Bool.
From stdpp Require Import base option gmap strings list fin_maps.

Local Open Scope string_scope.

(** ** Strings and the version pattern *)

(** The character class [\d] of an ECMAScript pattern: the ten ASCII digits. *)
Definition is_digit (c : ascii) : bool :=
  (48 <=? nat_of_ascii c)%nat && (nat_of_ascii c <=? 57)%nat.

Definition is_dot (c : ascii) : bool := Ascii.eqb c ".".

(** Every character of the string is a digit. *)
Fixpoint all_digits (s : string) : bool :=
  match s with
  | EmptyString => true
  | String c s' => is_digit c && all_digits s'
  end.

(** A greedy [\d*]: the longest run of digits at the head of the string,
    and what follows it. *)
Fixpoint digits_prefix (s : string) : string * string :=
  match s with
  | EmptyString => (EmptyString, EmptyString)
  | String c s' =>
      if is_digit c
      then let (d, r) := digits_prefix s' in (String c d, r)
      else (EmptyString, s)
  end.

(** A greedy [\d+] that must be followed by a literal dot; returns the
    digits and the text after the dot. *)
Definition digits_then_dot (s : string) : option (string * string) :=
  match digits_prefix s with
  | (String c d, String x r) =>
      if is_dot x then Some (String c d, r) else None
  | _ => None
  end.

(** The pattern [/\d+\.\d+\.\d+/] anchored at the head of the string.  The
    digit runs cannot give characters back (a digit is never a dot), so
    the backtracking matcher succeeds exactly when the three greedy runs
    do. *)
Definition match_here (s : string) : option string :=
  match digits_then_dot s with
  | Some (a, r1) =>
      match digits_then_dot r1 with
      | Some (b, r2) =>
          match digits_prefix r2 with
          | (String c d, _) => Some (a +:+ "." +:+ b +:+ "." +:+ String c d)
          | _ => None
          end
      | None => None
      end
  | None => None
  end.

(** [version.match(/\d+\.\d+\.\d+/)], reduced to element 0 of the match
    array: the matcher is tried at every index from the left, [None] is
    the [null] of a failed match. *)
Fixpoint String_match (s : string) : option string :=
  match match_here s with
  | Some m => Some m
  | None =>
      match s with
      | EmptyString => None
      | String _ s' => String_match s'
      end
  end.

(** The value of a run of decimal digits. *)
Definition digit_value (c : ascii) : N := N.of_nat (nat_of_ascii c - 48).

Fixpoint number_of_digits_from (acc : N) (s : string) : N :=
  match s with
  | EmptyString => acc
  | String c s' => number_of_digits_from (10 * acc + digit_value c)%N s'
  end.

Definition number_of_digits (s : string) : N := number_of_digits_from 0 s.

(** A version is three numeric components. *)
Definition Version : Type := N * N * N.

(** Reading a string that is exactly a dotted triple of digit runs. *)
Definition version_triple (s : string) : option Version :=
  match digits_then_dot s with
  | Some (a, r1) =>
      match digits_then_dot r1 with
      | Some (b, r2) =>
          match digits_prefix r2 with
          | (String c d, EmptyString) =>
              Some (number_of_digits a, number_of_digits b,
                    number_of_digits (String c d))
          | _ => None
          end
      | None => None
      end
  | None => None
  end.

(** Three-component numeric version ordering, as a number below, at or
    above zero. *)
Definition version_compare (p q : Version) : Z :=
  let '(a, b, c) := p in
  let '(x, y, z) := q in
  match (a ?= x)%N with
  | Lt => (-1)%Z
  | Gt => 1%Z
  | Eq =>
      match (b ?= y)%N with
      | Lt => (-1)%Z
      | Gt => 1%Z
      | Eq =>
          match (c ?= z)%N with
          | Lt => (-1)%Z
          | Gt => 1%Z
          | Eq => 0%Z
          end
      end
  end.

(** [q] is at most [p] in the lexicographic order of the components. *)
Definition version_le (q p : Version) : Prop :=
  let '(a, b, c) := p in
  let '(x, y, z) := q in
  (x < a)%N \/ (x = a /\ ((y < b)%N \/ (y = b /\ (z <= c)%N))).

(** Modelled from the spec: the [semiver] package is a third-party
    dependency and is not part of the sources.  The specification describes
    it as a standard three-component numeric version comparison; this is
    what a comparison function has to satisfy on two dotted triples. *)
Definition semiver_numeric_order (semiver : string -> string -> Z) : Prop :=
  forall s t p q,
    version_triple s = Some p ->
    version_triple t = Some q ->
    semiver s t = version_compare p q.

(** Modelled from the spec: a comparison function of that kind, used where a
    concrete one is needed.  Strings that are not dotted triples compare as
    equal. *)
Definition semiver_triples (s t : string) : Z :=
  match version_triple s, version_triple t with
  | Some p, Some q => version_compare p q
  | _, _ => 0%Z
  end.

(** [semiverComply] of the source, over the imported comparison function. *)
Definition semiverComply (semiver : string -> string -> Z)
    (version compare : string) : bool :=
  match String_match version with
  | Some match0 => (0 <=? semiver match0 compare)%Z
  | None => false
  end.

(** What it means for a string to contain a match of the pattern. *)
Definition digit_run (s : string) : Prop :=
  s <> EmptyString /\ all_digits s = true.

Definition dotted_triple (m : string) : Prop :=
  exists a b c,
    m = a +:+ "." +:+ b +:+ "." +:+ c /\
    digit_run a /\ digit_run b /\ digit_run c.

Definition contains_triple (s : string) : Prop :=
  exists pre m post, s = pre +:+ m +:+ post /\ dotted_triple m.

Definition starts_with_digit (s : string) : bool :=
  match s with
  | String c _ => is_digit c
  | EmptyString => false
  end.

(** [m] is the first match in [s]: a dotted triple that no digit follows,
    and no dotted triple of [s] starts further to the left. *)
Definition first_triple (s m : string) : Prop :=
  exists pre post,
    s = pre +:+ m +:+ post /\
    dotted_triple m /\
    starts_with_digit post = false /\
    forall pre' m' post',
      s = pre' +:+ m' +:+ post' -> dotted_triple m' ->
      String.length pre <= String.length pre'.

(** ** Messages, minimum versions and the objects of the command *)

Module Messages.
Definition TITLE : string := "Doctor".
Definition DESCRIPTION : string := "Detects problems with your setup".
Definition CHECK_TS_VERSION : string := "Checking TypeScript version".
Definition CHECK_DEPENDENCIES : string := "Checking installed dependencies".
Definition CHECK_TSCONFIG : string := "Checking tsconfig.json".
Definition CHECK_SCHEMA : string := "Checking schema".
End Messages.

Module MINIMUM_VERSIONS.
Definition typescript : string := "4.1.0".
Definition tada : string := "1.0.0".
Definition lsp : string := "1.0.0".
End MINIMUM_VERSIONS.

(** Modelled from the spec: the [logger] module is not part of the sources.
    What its task functions return is kept as the call itself: a title, the
    three states of a named check ([Running], [Failed], [Completed] with
    its [final] flag) and the overall-success sentinel. *)
Inductive ComposeInput : Type :=
| Title (title description : string)
| RunningTask (description : string)
| FailedTask (description : string)
| CompletedTask (description : string) (isLast : bool)
| Success.

(** Modelled from the spec: the values a run can end with.  [UserError] and
    [ExternalError] are the two pipeline errors built by the logger;
    [Opaque] is whatever a collaborator threw. *)
Inductive Thrown (Cause : Type) : Type :=
| Opaque (cause : Cause)
| UserError (message : string)
| ExternalError (message : string) (cause : Thrown Cause).

Arguments Opaque {Cause} cause.
Arguments UserError {Cause} message.
Arguments ExternalError {Cause} message cause.

Module logger.
Definition title : string -> string -> ComposeInput := Title.
Definition runningTask : string -> ComposeInput := RunningTask.
Definition failedTask : string -> ComposeInput := FailedTask.
(** The flag is optional in the source; a call without it is not the
    last one. *)
Definition completedTask (description : string) (isLast : option bool)
  : ComposeInput :=
  CompletedTask description (default false isLast).
Definition success : ComposeInput := Success.
Definition errorMessage {Cause} (message : string) : Thrown Cause :=
  UserError message.
Definition externalError {Cause} (message : string) (cause : Thrown Cause)
  : Thrown Cause :=
  ExternalError message cause.
End logger.

(** The part of [package.json] the command reads, as the source declares
    it: two objects from package names to version strings.  A mapping the
    file leaves out spreads as an empty one. *)
Record PackageJson : Type := {
  dependencies : gmap string string;
  devDependencies : gmap string string;
}.

(** [{ ...a, ...b }]: every property of each source is assigned in turn, so
    a later source overwrites an earlier one. *)
Definition object_spread (sources : list (gmap string string))
  : gmap string string :=
  fold_left (fun target source => source ∪ target) sources ∅.

Definition Object_entries (o : gmap string string) : list (string * string) :=
  map_to_list o.

(** [deps.find((x) => x[0] === name)] *)
Definition find_dependency (name : string) (deps : list (string * string))
  : option (string * string) :=
  List.find (fun x => String.eqb (fst x) name) deps.

(** The version a manifest declares for a package, in the words of the
    specification: the development dependencies win over the regular
    ones. *)
Definition declared_version (pkg : PackageJson) (name : string)
  : option string :=
  match devDependencies pkg !! name with
  | Some v => Some v
  | None => dependencies pkg !! name
  end.

(** Truthiness of an environment variable: set and not empty. *)
Definition truthy_variable (v : option string) : bool :=
  match v with
  | Some (String _ _) => true
  | _ => false
  end.

Section Doctor.

(** What collaborators throw, the object form of a schema origin, the
    plugin configuration as found in the project, and an introspection
    result: all opaque to the command. *)
Context {Cause OriginObject RawPluginConfig Introspection : Type}.

Inductive SchemaOrigin : Type :=
| OriginString (location : string)
| OriginObject_ (o : OriginObject).

(** [!!pluginConfig.schema] *)
Definition truthy_schema (s : option SchemaOrigin) : bool :=
  match s with
  | Some (OriginString (String _ _)) => true
  | Some (OriginObject_ _) => true
  | _ => false
  end.

Record GraphQLSPConfig : Type := { schema : option SchemaOrigin }.

Record LoadConfigResult : Type := {
  pluginConfig : RawPluginConfig;
  configPath : string;
}.

Record LoadInput : Type := {
  origin : option SchemaOrigin;
  rootPath : string;
}.

(** A loader answers with an introspection result, with nothing
    ([None], a falsy value), or throws. *)
Record Loader : Type := {
  loadIntrospection : Cause + option Introspection;
}.

(** [!!(await loader.loadIntrospection())] *)
Definition truthy_result (r : option Introspection) : bool :=
  match r with
  | Some _ => true
  | None => false
  end.

(** Everything the command takes from outside: the imported functions
    that are not part of the sources ([semiver], the formatters of the
    logger, the functions of [path], the collaborators of
    [@gql.tada/internal]), the process and the file system.  A call that can
    throw answers with a cause or a value; the calls the source makes
    outside of a [try] block ([path.resolve], [path.dirname], [load]) are
    total. *)
Record World : Type := {
  semiver : string -> string -> Z;
  code : string -> string;
  hint : string -> string;
  bold : string -> string;
  process_env_CI : option string;
  process_cwd : string;
  path_resolve : list string -> string;
  path_dirname : string -> string;
  fs_readFile : string -> string -> Cause + string;
  JSON_parse : string -> Cause + PackageJson;
  loadConfig : Cause + LoadConfigResult;
  parseConfig : RawPluginConfig -> Cause + GraphQLSPConfig;
  load : LoadInput -> Loader;
}.

Definition with_CI (v : option string) (w : World) : World :=
  {| semiver := semiver w; code := code w; hint := hint w; bold := bold w;
     process_env_CI := v;
     process_cwd := process_cwd w;
     path_resolve := path_resolve w; path_dirname := path_dirname w;
     fs_readFile := fs_readFile w; JSON_parse := JSON_parse w;
     loadConfig := loadConfig w; parseConfig := parseConfig w;
     load := load w |}.

(** *** The generator as a computation

    A run of the asynchronous generator is the list of what it did, in
    order (the values it yielded and the operations it awaited),
    together with how it ended: normally, or with a thrown value. *)
Inductive Effect : Type :=
| Yield (value : ComposeInput)
| SetTimeout (ms : Z)
| ReadFile (file encoding : string)
| LoadConfig
| LoadIntrospection (input : LoadInput).

Definition Gen (A : Type) : Type := list Effect * (Thrown Cause + A).

Definition ret {A} (a : A) : Gen A := ([], inr a).

Definition bind {A B} (m : Gen A) (k : A -> Gen B) : Gen B :=
  match m with
  | (t, inl e) => (t, inl e)
  | (t, inr a) => let (t', r) := k a in ((t ++ t')%list, r)
  end.

Definition yield (value : ComposeInput) : Gen unit := ([Yield value], inr tt).

Definition throw {A} (e : Thrown Cause) : Gen A := ([], inl e).

(** The result of a synchronous call into a collaborator. *)
Definition call {A} (r : Cause + A) : Gen A :=
  match r with
  | inl c => throw (Opaque c)
  | inr a => ret a
  end.

(** An awaited operation: it is recorded, then it resolves or rejects. *)
Definition await {A} (op : Effect) (r : Cause + A) : Gen A :=
  bind ([op], inr tt) (fun _ => call r).

Definition try_catch {A} (body : Gen A) (handler : Thrown Cause -> Gen A)
  : Gen A :=
  match body with
  | (t, inl e) => let (t', r) := handler e in ((t ++ t')%list, r)
  | (t, inr a) => (t, inr a)
  end.

Notation "x <- m ;; k" := (bind m (fun x => k))
  (at level 100, m at next level, k at level 200, right associativity).
Notation "m ;; k" := (bind m (fun _ => k))
  (at level 100, k at level 200, right associativity).

(** *** The command *)

Variable w : World.

(** Most tasks complete too quickly; they are slowed down, unless the
    [CI] variable is set. *)
Definition delay (ms : Z) : Gen unit :=
  if truthy_variable (process_env_CI w)
  then ret tt
  else ([SetTimeout ms], inr tt).

(** The default of the parameter of [delay]. *)
Definition delay_default : Z := 700.

(** The texts of the errors, as the template strings of the source. *)
Definition manifest_not_found : string :=
  "A " +:+ code w "package.json" +:+
  " file was not found in the current working directory." +:+
  String "010" "" +:+
  hint w "Try running the doctor command in your workspace folder.".

Definition typescript_not_found : string :=
  "A version of " +:+ code w "typescript" +:+
  " was not found in your dependencies." +:+ String "010" "" +:+
  hint w ("Is " +:+ code w "typescript" +:+ " installed in this package?").

Definition typescript_out_of_date : string :=
  "The version of " +:+ code w "typescript" +:+
  " in your dependencies is out of date." +:+ String "010" "" +:+
  hint w (code w "gql.tada" +:+ " requires at least " +:+
          bold w MINIMUM_VERSIONS.typescript).

Definition graphqlsp_not_found : string :=
  "A version of " +:+ code w "@0no-co/graphqlsp" +:+
  " was not found in your dependencies." +:+ String "010" "" +:+
  hint w ("Is " +:+ code w "@0no-co/graphqlsp" +:+ " installed?").

Definition graphqlsp_out_of_date : string :=
  "The version of " +:+ code w "@0no-co/graphqlsp" +:+
  " in your dependencies is out of date." +:+ String "010" "" +:+
  hint w (code w "gql.tada" +:+ " requires at least " +:+
          bold w MINIMUM_VERSIONS.lsp).

Definition tada_not_found : string :=
  "A version of " +:+ code w "gql.tada" +:+
  " was not found in your dependencies." +:+ String "010" "" +:+
  hint w ("Is " +:+ code w "gql.tada" +:+ " installed?").

Definition tada_out_of_date : string :=
  "The version of " +:+ code w "gql.tada" +:+
  " in your dependencies is out of date." +:+ String "010" "" +:+
  hint w ("It's recommended to upgrade " +:+ code w "gql.tada" +:+
          " to at least " +:+ bold w MINIMUM_VERSIONS.lsp).

Definition tsconfig_not_found : string :=
  "A " +:+ code w "tsconfig.json" +:+
  " file was not found in the current working directory.".

Definition plugin_config_invalid : string :=
  "The plugin configuration for " +:+
  code w (String "034" "@0no-co/graphqlsp" +:+ String "034" "") +:+
  " seems to be invalid.".

Definition schema_option_not_found : string :=
  "No " +:+ code w (String "034" "schema" +:+ String "034" "") +:+
  " option was found in your configuration." +:+ String "010" "" +:+
  hint w "Have you specified your SDL file or URL in your configuration yet?".

Definition failed_to_load_schema : string := "Failed to load schema.".

(** The path of the manifest, resolved twice as in the source. *)
Definition packageJsonPath : string :=
  path_resolve w [process_cwd w; "package.json"].

Definition packageJsonFile : string := path_resolve w [packageJsonPath].

(** The merged dependency entries the three lookups search. *)
Definition deps_of (packageJsonContents : PackageJson)
  : list (string * string) :=
  Object_entries
    (object_spread [dependencies packageJsonContents;
                    devDependencies packageJsonContents]).

Definition run : Gen unit :=
  yield (logger.title Messages.TITLE Messages.DESCRIPTION) ;;
  yield (logger.runningTask Messages.CHECK_TS_VERSION) ;;
  delay delay_default ;;

  (* Check TypeScript version *)
  packageJsonContents <-
    try_catch
      (let file := path_resolve w [packageJsonPath] in
       text <- await (ReadFile file "utf-8") (fs_readFile w file "utf-8") ;;
       call (JSON_parse w text))
      (fun _error =>
         yield (logger.failedTask Messages.CHECK_TS_VERSION) ;;
         throw (logger.errorMessage manifest_not_found)) ;;

  let deps := deps_of packageJsonContents in

  let typeScriptVersion := find_dependency "typescript" deps in
  match typeScriptVersion with
  | None =>
      yield (logger.failedTask Messages.CHECK_TS_VERSION) ;;
      throw (logger.errorMessage typescript_not_found)
  | Some typeScriptVersion =>
      if negb (semiverComply (semiver w) (snd typeScriptVersion)
                 MINIMUM_VERSIONS.typescript)
      then
        yield (logger.failedTask Messages.CHECK_TS_VERSION) ;;
        throw (logger.errorMessage typescript_out_of_date)
      else ret tt
  end ;;

  yield (logger.completedTask Messages.CHECK_TS_VERSION None) ;;
  yield (logger.runningTask Messages.CHECK_DEPENDENCIES) ;;
  delay delay_default ;;

  let gqlspVersion := find_dependency "@0no-co/graphqlsp" deps in
  match gqlspVersion with
  | None =>
      yield (logger.failedTask Messages.CHECK_DEPENDENCIES) ;;
      throw (logger.errorMessage graphqlsp_not_found)
  | Some gqlspVersion =>
      if negb (semiverComply (semiver w) (snd gqlspVersion)
                 MINIMUM_VERSIONS.lsp)
      then
        yield (logger.failedTask Messages.CHECK_DEPENDENCIES) ;;
        throw (logger.errorMessage graphqlsp_out_of_date)
      else ret tt
  end ;;

  let gqlTadaVersion := find_dependency "gql.tada" deps in
  match gqlTadaVersion with
  | None =>
      yield (logger.failedTask Messages.CHECK_DEPENDENCIES) ;;
      throw (logger.errorMessage tada_not_found)
  | Some gqlTadaVersion =>
      if negb (semiverComply (semiver w) (snd gqlTadaVersion) "1.0.0")
      then
        yield (logger.failedTask Messages.CHECK_DEPENDENCIES) ;;
        throw (logger.errorMessage tada_out_of_date)
      else ret tt
  end ;;

  yield (logger.completedTask Messages.CHECK_DEPENDENCIES None) ;;
  yield (logger.runningTask Messages.CHECK_TSCONFIG) ;;
  delay delay_default ;;

  configResult <-
    try_catch
      (await LoadConfig (loadConfig w))
      (fun error =>
         yield (logger.failedTask Messages.CHECK_TSCONFIG) ;;
         throw (logger.externalError tsconfig_not_found error)) ;;

  pluginConfig <-
    try_catch
      (call (parseConfig w (pluginConfig configResult)))
      (fun error =>
         throw (logger.externalError plugin_config_invalid error)) ;;

  (if negb (truthy_schema (schema pluginConfig))
   then
     yield (logger.failedTask Messages.CHECK_TSCONFIG) ;;
     throw (logger.errorMessage schema_option_not_found)
   else ret tt) ;;

  yield (logger.completedTask Messages.CHECK_TSCONFIG None) ;;
  yield (logger.runningTask Messages.CHECK_SCHEMA) ;;
  delay delay_default ;;

  let input :=
    {| origin := schema pluginConfig;
       rootPath := path_dirname w (configPath configResult) |} in
  let loader := load w input in

  hasSchema <-
    try_catch
      (result <- await (LoadIntrospection input) (loadIntrospection loader) ;;
       ret (truthy_result result))
      (fun error =>
         throw (logger.externalError failed_to_load_schema error)) ;;
  (if negb hasSchema
   then throw (logger.errorMessage failed_to_load_schema)
   else ret tt) ;;

  yield (logger.completedTask Messages.CHECK_SCHEMA (Some true)) ;;
  delay delay_default ;;

  yield logger.success.

End Doctor.

Arguments SchemaOrigin : clear implicits.
Arguments GraphQLSPConfig : clear implicits.
Arguments LoadConfigResult : clear implicits.
Arguments LoadInput : clear implicits.
Arguments Loader : clear implicits.
Arguments World : clear implicits.
Arguments Effect : clear implicits.
Arguments Gen : clear implicits.


(** ** Observing a run *)

Section Observations.

Context {Cause OriginObject RawPluginConfig Introspection : Type}.
Local Abbreviation World := (World Cause OriginObject RawPluginConfig Introspection).

(** What the generator did, and how it ended. *)
Definition trace {A} (g : Gen Cause OriginObject A) : list (Effect OriginObject) :=
  fst g.

Definition outcome {A} (g : Gen Cause OriginObject A) : Thrown Cause + A :=
  snd g.

Definition yielded (e : Effect OriginObject) : option ComposeInput :=
  match e with
  | Yield v => Some v
  | _ => None
  end.

(** The event sequence a consumer receives. *)
Definition events {A} (g : Gen Cause OriginObject A) : list ComposeInput :=
  omap yielded (trace g).

Definition is_timer (e : Effect OriginObject) : bool :=
  match e with
  | SetTimeout _ => true
  | _ => false
  end.

(** The trace without the timers. *)
Definition untimed (t : list (Effect OriginObject)) : list (Effect OriginObject) :=
  List.filter (fun e => negb (is_timer e)) t.

(** Reading the manifest: the file is read, then parsed. *)
Definition manifest (w : World) : Cause + PackageJson :=
  match fs_readFile w (packageJsonFile w) "utf-8" with
  | inl c => inl c
  | inr text => JSON_parse w text
  end.

(** The manifest declares the package at a version that complies with the
    minimum. *)
Definition complies (w : World) (pkg : PackageJson) (name minimum : string)
  : bool :=
  match declared_version pkg name with
  | Some v => semiverComply (semiver w) v minimum
  | None => false
  end.

Definition checks_1_2_pass (w : World) (pkg : PackageJson) : Prop :=
  manifest w = inr pkg /\
  complies w pkg "typescript" "4.1.0" = true /\
  complies w pkg "@0no-co/graphqlsp" "1.0.0" = true /\
  complies w pkg "gql.tada" "1.0.0" = true.

Definition load_input (w : World) (cfg : LoadConfigResult RawPluginConfig)
    (pc : GraphQLSPConfig OriginObject) : LoadInput OriginObject :=
  {| origin := schema pc; rootPath := path_dirname w (configPath cfg) |}.

Definition check_3_passes (w : World) (cfg : LoadConfigResult RawPluginConfig)
    (pc : GraphQLSPConfig OriginObject) : Prop :=
  loadConfig w = inr cfg /\
  parseConfig w (pluginConfig cfg) = inr pc /\
  truthy_schema (schema pc) = true.

Definition check_4_passes (w : World) (cfg : LoadConfigResult RawPluginConfig)
    (pc : GraphQLSPConfig OriginObject) : Prop :=
  exists i, loadIntrospection (load w (load_input w cfg pc)) = inr (Some i).

End Observations.

(** The four checks, in the order of the pipeline. *)
Inductive Check : Type := TsVersion | Dependencies | Tsconfig | Schema.

Definition check_label (c : Check) : string :=
  match c with
  | TsVersion => Messages.CHECK_TS_VERSION
  | Dependencies => Messages.CHECK_DEPENDENCIES
  | Tsconfig => Messages.CHECK_TSCONFIG
  | Schema => Messages.CHECK_SCHEMA
  end.

Definition check_number (c : Check) : nat :=
  match c with
  | TsVersion => 1
  | Dependencies => 2
  | Tsconfig => 3
  | Schema => 4
  end.

Definition title_event : ComposeInput :=
  Title Messages.TITLE Messages.DESCRIPTION.

Definition Running (c : Check) : ComposeInput := RunningTask (check_label c).
Definition Failed (c : Check) : ComposeInput := FailedTask (check_label c).
Definition Completed (c : Check) (final : bool) : ComposeInput :=
  CompletedTask (check_label c) final.

(** The events of a run that has reached the work of a check. *)
Definition events_reaching (c : Check) : list ComposeInput :=
  match c with
  | TsVersion => [title_event; Running TsVersion]
  | Dependencies =>
      [title_event; Running TsVersion; Completed TsVersion false;
       Running Dependencies]
  | Tsconfig =>
      [title_event; Running TsVersion; Completed TsVersion false;
       Running Dependencies; Completed Dependencies false;
       Running Tsconfig]
  | Schema =>
      [title_event; Running TsVersion; Completed TsVersion false;
       Running Dependencies; Completed Dependencies false;
       Running Tsconfig; Completed Tsconfig false;
       Running Schema]
  end.

(** The lifecycle of the checks along an event sequence.  The state is the
    number of checks that have produced their terminal event, and whether
    the next check is running.  A [Running] event is accepted only for the
    next check and only when no check is running; a [Completed] or [Failed]
    event only for the check that is running. *)
Definition nth_check (n : nat) : option Check :=
  match n with
  | 0 => Some TsVersion
  | 1 => Some Dependencies
  | 2 => Some Tsconfig
  | 3 => Some Schema
  | _ => None
  end.

Definition is_label_of (n : nat) (description : string) : bool :=
  match nth_check n with
  | Some c => String.eqb description (check_label c)
  | None => false
  end.

Fixpoint lifecycle (finished : nat) (running : bool) (es : list ComposeInput)
  : bool :=
  match es with
  | [] => true
  | RunningTask l :: es' =>
      negb running && is_label_of finished l && lifecycle finished true es'
  | FailedTask l :: es' =>
      running && is_label_of finished l && lifecycle (S finished) false es'
  | CompletedTask l _ :: es' =>
      running && is_label_of finished l && lifecycle (S finished) false es'
  | _ :: es' => lifecycle finished running es'
  end.

(** The terminal events of a check in an event sequence. *)
Definition is_terminal_of (c : Check) (e : ComposeInput) : bool :=
  match e with
  | FailedTask l => String.eqb l (check_label c)
  | CompletedTask l _ => String.eqb l (check_label c)
  | _ => false
  end.

Definition terminal_events (c : Check) (es : list ComposeInput)
  : list ComposeInput :=
  List.filter (is_terminal_of c) es.

(** *** The failure modes of the first two checks *)

Inductive Package : Type := TypeScript | GraphQLSP | Tada.

Definition package_name (p : Package) : string :=
  match p with
  | TypeScript => "typescript"
  | GraphQLSP => "@0no-co/graphqlsp"
  | Tada => "gql.tada"
  end.

(** The minimum each package is compared with. *)
Definition package_minimum (p : Package) : string :=
  match p with
  | TypeScript => MINIMUM_VERSIONS.typescript
  | GraphQLSP => MINIMUM_VERSIONS.lsp
  | Tada => "1.0.0"
  end.

Definition package_check (p : Package) : Check :=
  match p with
  | TypeScript => TsVersion
  | GraphQLSP => Dependencies
  | Tada => Dependencies
  end.

(** The packages the pipeline validates before it comes to [p]. *)
Definition validated_before (p : Package) : list Package :=
  match p with
  | TypeScript => []
  | GraphQLSP => [TypeScript]
  | Tada => [TypeScript; GraphQLSP]
  end.

Inductive FailureMode : Type :=
| ManifestUnreadable
| EntryAbsent (p : Package)
| NonCompliant (p : Package).

Definition failure_check (f : FailureMode) : Check :=
  match f with
  | ManifestUnreadable => TsVersion
  | EntryAbsent p => package_check p
  | NonCompliant p => package_check p
  end.

Section Failures.

Context {Cause OriginObject RawPluginConfig Introspection : Type}.
Local Abbreviation World := (World Cause OriginObject RawPluginConfig Introspection).

(** The failure mode is the first thing that goes wrong in world [w]. *)
Definition occurs (w : World) (f : FailureMode) : Prop :=
  match f with
  | ManifestUnreadable => exists c, manifest w = inl c
  | EntryAbsent p =>
      exists pkg,
        manifest w = inr pkg /\
        forallb (fun q => complies w pkg (package_name q) (package_minimum q))
          (validated_before p) = true /\
        declared_version pkg (package_name p) = None
  | NonCompliant p =>
      exists pkg v,
        manifest w = inr pkg /\
        forallb (fun q => complies w pkg (package_name q) (package_minimum q))
          (validated_before p) = true /\
        declared_version pkg (package_name p) = Some v /\
        semiverComply (semiver w) v (package_minimum p) = false
  end.

Definition failure_message (w : World) (f : FailureMode) : string :=
  match f with
  | ManifestUnreadable => manifest_not_found w
  | EntryAbsent TypeScript => typescript_not_found w
  | EntryAbsent GraphQLSP => graphqlsp_not_found w
  | EntryAbsent Tada => tada_not_found w
  | NonCompliant TypeScript => typescript_out_of_date w
  | NonCompliant GraphQLSP => graphqlsp_out_of_date w
  | NonCompliant Tada => tada_out_of_date w
  end.

End Failures.

(** ** Sample projects *)

Module Sample.

(** A manifest in which [typescript] is declared twice. *)
Definition manifest_ok : PackageJson :=
  {| dependencies :=
       <["gql.tada" := "^1.2.0"]> (<["typescript" := "^3.9.0"]> ∅);
     devDependencies :=
       <["typescript" := "~5.3.3"]> (<["@0no-co/graphqlsp" := "^1.4.0"]> ∅) |}.

Definition manifest_without (name : string) : PackageJson :=
  {| dependencies := delete name (dependencies manifest_ok);
     devDependencies := delete name (devDependencies manifest_ok) |}.

Definition manifest_with (name version : string) : PackageJson :=
  {| dependencies := dependencies manifest_ok;
     devDependencies := <[name := version]> (devDependencies manifest_ok) |}.

(** A manifest that declares the toolchain only. *)
Definition manifest_typescript_only : PackageJson :=
  {| dependencies := ∅;
     devDependencies := <["typescript" := "~5.3.3"]> ∅ |}.

Definition resolve (parts : list string) : string :=
  match parts with
  | [a] => a
  | [a; b] => a +:+ "/" +:+ b
  | _ => ""
  end.

(** A project in [/project] whose collaborators answer as given. *)
Definition world
    (ci : option string)
    (file : string + string)
    (parsed : string + PackageJson)
    (config : string + LoadConfigResult string)
    (plugin : string + GraphQLSPConfig unit)
    (introspection : string + option unit)
  : World string unit string unit :=
  {| semiver := semiver_triples;
     code := fun s => "`" +:+ s +:+ "`";
     hint := fun s => s;
     bold := fun s => s;
     process_env_CI := ci;
     process_cwd := "/project";
     path_resolve := resolve;
     path_dirname := fun _ => "/project";
     fs_readFile := fun file' _ =>
       if String.eqb file' "/project/package.json" then file else inl "ENOENT";
     JSON_parse := fun _ => parsed;
     loadConfig := config;
     parseConfig := fun _ => plugin;
     load := fun _ => {| loadIntrospection := introspection |} |}.

Definition config_ok : LoadConfigResult string :=
  {| pluginConfig := "{ schema: './schema.graphql' }";
     configPath := "/project/tsconfig.json" |}.

Definition plugin_ok : GraphQLSPConfig unit :=
  {| schema := Some (OriginString "./schema.graphql") |}.

Definition plugin_without_schema : GraphQLSPConfig unit :=
  {| schema := None |}.

(** Every check is satisfied. *)
Definition healthy (ci : option string) : World string unit string unit :=
  world ci (inr "{...}") (inr manifest_ok) (inr config_ok) (inr plugin_ok)
    (inr (Some tt)).

Definition with_manifest (pkg : PackageJson) : World string unit string unit :=
  world None (inr "{...}") (inr pkg) (inr config_ok) (inr plugin_ok)
    (inr (Some tt)).

Definition missing_manifest : World string unit string unit :=
  world None (inl "ENOENT") (inr manifest_ok) (inr config_ok) (inr plugin_ok)
    (inr (Some tt)).

Definition malformed_manifest : World string unit string unit :=
  world None (inr "{") (inl "SyntaxError") (inr config_ok) (inr plugin_ok)
    (inr (Some tt)).

Definition missing_tsconfig : World string unit string unit :=
  world None (inr "{...}") (inr manifest_ok) (inl "tsconfig not found")
    (inr plugin_ok) (inr (Some tt)).

Definition invalid_plugin : World string unit string unit :=
  world None (inr "{...}") (inr manifest_ok) (inr config_ok)
    (inl "invalid plugin configuration") (inr (Some tt)).

Definition no_schema_option : World string unit string unit :=
  world None (inr "{...}") (inr manifest_ok) (inr config_ok)
    (inr plugin_without_schema) (inr (Some tt)).

Definition unreachable_schema : World string unit string unit :=
  world None (inr "{...}") (inr manifest_ok) (inr config_ok) (inr plugin_ok)
    (inl "ECONNREFUSED").

Definition empty_schema : World string unit string unit :=
  world None (inr "{...}") (inr manifest_ok) (inr config_ok) (inr plugin_ok)
    (inr None).

End Sample.

(** ** Further observations *)

(** The event sequence of a run in which every check passes. *)
Definition all_pass_events : list ComposeInput :=
  [title_event;
   Running TsVersion; Completed TsVersion false;
   Running Dependencies; Completed Dependencies false;
   Running Tsconfig; Completed Tsconfig false;
   Running Schema; Completed Schema true;
   Success].

(** Some character of the string is a digit. *)
Fixpoint has_digit (s : string) : bool :=
  match s with
  | EmptyString => false
  | String c s' => is_digit c || has_digit s'
  end.

(** The number of dots in the string. *)
Fixpoint count_dots (s : string) : nat :=
  match s with
  | EmptyString => 0
  | String c s' => (if is_dot c then 1 else 0) + count_dots s'
  end.

Section MoreObservations.

Context {Cause OriginObject RawPluginConfig Introspection : Type}.
Local Abbreviation World := (World Cause OriginObject RawPluginConfig Introspection).

Definition is_read (e : Effect OriginObject) : bool :=
  match e with
  | ReadFile _ _ => true
  | _ => false
  end.

(** Every Running event is directly followed by a timer of 700 ms. *)
Fixpoint paced (t : list (Effect OriginObject)) : bool :=
  match t with
  | [] => true
  | Yield (RunningTask _) :: rest =>
      match rest with
      | SetTimeout ms :: _ => (ms =? 700)%Z && paced rest
      | _ => false
      end
  | _ :: rest => paced rest
  end.

(** The same world with another answer of [JSON.parse]. *)
Definition with_JSON_parse (parse : string -> Cause + PackageJson) (w : World)
  : World :=
  {| semiver := semiver w; code := code w; hint := hint w; bold := bold w;
     process_env_CI := process_env_CI w;
     process_cwd := process_cwd w;
     path_resolve := path_resolve w; path_dirname := path_dirname w;
     fs_readFile := fs_readFile w; JSON_parse := parse;
     loadConfig := loadConfig w; parseConfig := parseConfig w;
     load := load w |}.

End MoreObservations.

Module MoreSamples.

(** The healthy manifest with one more package, which the command does not
    look for. *)
Definition manifest_with_react : PackageJson :=
  {| dependencies := <["react" := "^18.2.0"]> (dependencies Sample.manifest_ok);
     devDependencies := devDependencies Sample.manifest_ok |}.

End MoreSamples.

(** * Properties *)

(** ** The version comparator *)

Example String_match_caret :
  String_match "^4.9.5-beta.1" = Some "4.9.5".
Proof. reflexivity. Qed.

Example String_match_second :
  String_match "1.2.x and 10.20.30.40" = Some "10.20.30".
Proof. reflexivity. Qed.

Example String_match_none : String_match "workspace:*" = None.
Proof. reflexivity. Qed.

Example comply_examples :
  semiverComply semiver_triples "4.9.5" "4.1.0" = true /\
  semiverComply semiver_triples "3.9.0" "4.1.0" = false /\
  semiverComply semiver_triples "4.1.0" "4.1.0" = true /\
  semiverComply semiver_triples "latest" "4.1.0" = false.
Proof. repeat split; reflexivity. Qed.

Section VersionPattern.

#[local] Arguments String.append !_ _ /.

Lemma string_app_assoc (a b c : string) : (a +:+ b) +:+ c = a +:+ b +:+ c.
Proof. induction a as [|x a IH]; simpl; [reflexivity | by rewrite IH]. Qed.

Lemma string_app_nil_r (a : string) : a +:+ "" = a.
Proof. induction a as [|x a IH]; simpl; [reflexivity | by rewrite IH]. Qed.

Lemma is_dot_spec (c : ascii) : is_dot c = true -> c = "."%char.
Proof. unfold is_dot. apply Ascii.eqb_eq. Qed.

Lemma digits_prefix_spec (s d r : string) :
  digits_prefix s = (d, r) ->
  s = d +:+ r /\ all_digits d = true /\ starts_with_digit r = false.
Proof.
  revert d r. induction s as [|x s IH]; intros d r; simpl.
  - intros [= <- <-]. auto.
  - destruct (is_digit x) eqn:Hx.
    + destruct (digits_prefix s) as [d' r'] eqn:Hs.
      intros [= <- <-]. destruct (IH d' r' eq_refl) as (-> & Hd & Hr).
      simpl. rewrite Hx, Hd. auto.
    + intros [= <- <-]. simpl. auto.
Qed.

Lemma digits_prefix_no_digit (r : string) :
  starts_with_digit r = false -> digits_prefix r = ("", r).
Proof. destruct r as [|x r]; simpl; [reflexivity|]. by intros ->. Qed.

Lemma digits_prefix_app (d r : string) :
  all_digits d = true ->
  digits_prefix (d +:+ r) = (d +:+ (digits_prefix r).1, (digits_prefix r).2).
Proof.
  induction d as [|x d IH]; simpl.
  - intros _. by destruct (digits_prefix r).
  - intros [Hx Hd]%andb_true_iff. rewrite Hx, (IH Hd). reflexivity.
Qed.

Lemma digits_prefix_stop (d r : string) :
  all_digits d = true -> starts_with_digit r = false ->
  digits_prefix (d +:+ r) = (d, r).
Proof.
  intros Hd Hr. rewrite (digits_prefix_app _ _ Hd), (digits_prefix_no_digit _ Hr).
  simpl. by rewrite string_app_nil_r.
Qed.

Lemma digits_then_dot_app (a r : string) :
  digit_run a -> digits_then_dot (a +:+ "." +:+ r) = Some (a, r).
Proof.
  intros [Hne Ha]. unfold digits_then_dot.
  rewrite (digits_prefix_stop a ("." +:+ r) Ha eq_refl).
  destruct a as [|x a]; [congruence | reflexivity].
Qed.

Lemma digits_then_dot_spec (s a r : string) :
  digits_then_dot s = Some (a, r) -> s = a +:+ "." +:+ r /\ digit_run a.
Proof.
  unfold digits_then_dot.
  destruct (digits_prefix s) as [d r'] eqn:Hs.
  apply digits_prefix_spec in Hs as (-> & Hd & _).
  destruct d as [|c d]; [done|]. destruct r' as [|x r']; [done|].
  destruct (is_dot x) eqn:Hx; [|done].
  intros [= <- <-]. apply is_dot_spec in Hx as ->. by split.
Qed.

Lemma match_here_complete (a b c post : string) :
  digit_run a -> digit_run b -> digit_run c ->
  match_here (a +:+ "." +:+ b +:+ "." +:+ c +:+ post) =
  Some (a +:+ "." +:+ b +:+ "." +:+ c +:+ (digits_prefix post).1).
Proof.
  intros Ha Hb [Hne Hc]. unfold match_here.
  rewrite (digits_then_dot_app _ _ Ha), (digits_then_dot_app _ _ Hb).
  rewrite (digits_prefix_app _ _ Hc).
  destruct c as [|x c]; [congruence | reflexivity].
Qed.

Lemma match_here_sound (s m : string) :
  match_here s = Some m ->
  exists post,
    s = m +:+ post /\ dotted_triple m /\ starts_with_digit post = false.
Proof.
  unfold match_here.
  destruct (digits_then_dot s) as [[a r1]|] eqn:H1; [|done].
  destruct (digits_then_dot r1) as [[b r2]|] eqn:H2; [|done].
  destruct (digits_prefix r2) as [c post] eqn:H3.
  apply digits_then_dot_spec in H1 as (-> & Ha).
  apply digits_then_dot_spec in H2 as (-> & Hb).
  apply digits_prefix_spec in H3 as (-> & Hc & Hpost).
  destruct c as [|x c]; [done|]. intros [= <-].
  exists post. split; [|split; [|exact Hpost]].
  - rewrite !string_app_assoc. simpl. by rewrite !string_app_assoc.
  - exists a, b, (String x c). split; [reflexivity|].
    split; [exact Ha|]. split; [exact Hb|]. split; [discriminate | exact Hc].
Qed.

Lemma String_match_unfold (s : string) :
  String_match s =
  match match_here s with
  | Some m => Some m
  | None =>
      match s with
      | EmptyString => None
      | String _ s' => String_match s'
      end
  end.
Proof. by destruct s. Qed.

Lemma String_match_sound (s m : string) :
  String_match s = Some m ->
  exists pre post,
    s = pre +:+ m +:+ post /\
    dotted_triple m /\
    starts_with_digit post = false /\
    forall pre' rest,
      s = pre' +:+ rest -> String.length pre' < String.length pre ->
      match_here rest = None.
Proof.
  revert m. induction s as [|x s IH]; intros m; rewrite String_match_unfold.
  - destruct (match_here "") eqn:Hh; [|done]. intros [= ->].
    apply match_here_sound in Hh as (post & Hs & Hm & Hpost).
    exists "", post. simpl. repeat split; auto. intros ? ? _ ?. lia.
  - destruct (match_here (String x s)) eqn:Hh.
    + intros [= ->].
      apply match_here_sound in Hh as (post & Hs & Hm & Hpost).
      exists "", post. simpl. repeat split; auto. intros ? ? _ ?. lia.
    + intros (pre & post & -> & Hm & Hpost & Hleft)%IH.
      exists (String x pre), post. simpl. repeat split; auto.
      intros pre' rest Heq Hlen. destruct pre' as [|y pre']; simpl in *.
      * by subst rest.
      * injection Heq as -> Heq. apply (Hleft pre' rest Heq). lia.
Qed.

Lemma String_match_complete (pre rest : string) :
  is_Some (match_here rest) -> is_Some (String_match (pre +:+ rest)).
Proof.
  intros [m Hm]. induction pre as [|x pre IH]; simpl "+:+";
    rewrite String_match_unfold.
  - rewrite Hm. by eexists.
  - destruct (match_here (String x _)); [by eexists | exact IH].
Qed.

Lemma dotted_triple_match_here (m post : string) :
  dotted_triple m -> is_Some (match_here (m +:+ post)).
Proof.
  intros (a & b & c & -> & Ha & Hb & Hc).
  rewrite !string_app_assoc.
  rewrite (match_here_complete a b c post Ha Hb Hc). by eexists.
Qed.

Lemma String_match_first (s m : string) :
  String_match s = Some m -> first_triple s m.
Proof.
  intros (pre & post & Hs & Hm & Hpost & Hleft)%String_match_sound.
  exists pre, post. repeat split; auto.
  intros pre' m' post' Hs' Hm'.
  destruct (Nat.le_gt_cases (String.length pre) (String.length pre')) as [|Hlt];
    [done|].
  specialize (Hleft pre' (m' +:+ post') Hs' Hlt).
  destruct (dotted_triple_match_here m' post' Hm') as [? Hsome]. congruence.
Qed.

Lemma String_match_contains (s : string) :
  contains_triple s <-> is_Some (String_match s).
Proof.
  split.
  - intros (pre & m & post & -> & Hm).
    apply String_match_complete, dotted_triple_match_here, Hm.
  - intros [m (pre & post & Hs & Hm & _)%String_match_sound].
    by exists pre, m, post.
Qed.

Lemma dotted_triple_version (m : string) :
  dotted_triple m -> is_Some (version_triple m).
Proof.
  intros (a & b & c & -> & Ha & Hb & Hne & Hc). unfold version_triple.
  rewrite (digits_then_dot_app _ _ Ha), (digits_then_dot_app _ _ Hb).
  rewrite <- (string_app_nil_r c) at 1.
  rewrite (digits_prefix_stop c "" Hc eq_refl).
  destruct c as [|x c]; [congruence | by eexists].
Qed.

Lemma version_compare_le (p q : Version) :
  (0 <=? version_compare p q)%Z = true <-> version_le q p.
Proof.
  destruct p as [[a b] c], q as [[x y] z]. unfold version_compare, version_le.
  destruct (N.compare_spec a x); destruct (N.compare_spec b y);
    destruct (N.compare_spec c z); simpl; split; intros; try lia; try done.
Qed.

Lemma semiver_triples_numeric : semiver_numeric_order semiver_triples.
Proof. intros s t p q Hs Ht. unfold semiver_triples. by rewrite Hs, Ht. Qed.

(** C6. A version string that contains no dotted triple of digits does not
    comply (the comparator returns [false]; it is a total function, nothing
    is thrown).  Otherwise the comparator takes the first dotted triple, that
    is the leftmost one, with whatever precedes or follows it left out, and
    answers whether the imported comparison of that triple with the minimum
    is at least zero; for a comparison that orders dotted triples
    numerically, component by component, this is the case exactly when the
    minimum is at most the triple.  The bound is inclusive: [4.1.0] complies
    with [4.1.0]. *)
Theorem semiverComply_spec (semiver : string -> string -> Z)
    (discovered minimum : string) :
  (~ contains_triple discovered ->
   semiverComply semiver discovered minimum = false) /\
  (contains_triple discovered ->
   exists m,
     first_triple discovered m /\
     semiverComply semiver discovered minimum = (0 <=? semiver m minimum)%Z /\
     (semiver_numeric_order semiver ->
      forall q, version_triple minimum = Some q ->
      exists p,
        version_triple m = Some p /\
        (semiverComply semiver discovered minimum = true <-> version_le q p))) /\
  (semiver_numeric_order semiver ->
   semiverComply semiver "4.1.0" "4.1.0" = true).
Proof.
  unfold semiverComply. split; [|split].
  - intros Hno. destruct (String_match discovered) eqn:Hm; [|done].
    exfalso. apply Hno, String_match_contains. by eexists.
  - intros [m Hm]%String_match_contains. rewrite Hm.
    pose proof (String_match_first _ _ Hm) as Hfirst.
    exists m. repeat split; auto.
    intros Hnum q Hq.
    destruct Hfirst as (_ & _ & _ & Htriple & _).
    destruct (dotted_triple_version m Htriple) as [p Hp].
    exists p. split; [done|].
    rewrite (Hnum m minimum p q Hp Hq). apply version_compare_le.
  - intros Hnum.
    assert (String_match "4.1.0" = Some "4.1.0") as -> by reflexivity.
    by rewrite (Hnum "4.1.0" "4.1.0" (4, 1, 0)%N (4, 1, 0)%N eq_refl eq_refl).
Qed.

End VersionPattern.

Lemma semiverComply_spec_witness :
  semiverComply semiver_triples "4.1.0" "4.1.0" = true.
Proof.
  apply (semiverComply_spec semiver_triples "4.1.0" "4.1.0").
  exact semiver_triples_numeric.
Defined.

(** ** The dependency map *)

Lemma find_dependency_lookup (name : string) (m : gmap string string) :
  find_dependency name (Object_entries m) = (fun v => (name, v)) <$> m !! name.
Proof.
  unfold find_dependency, Object_entries.
  destruct (m !! name) as [v|] eqn:Hm; simpl.
  - destruct (List.find _ _) as [[k v']|] eqn:Hf.
    + apply List.find_some in Hf as [Hin Hk]. simpl in Hk.
      apply String.eqb_eq in Hk. subst k.
      apply list_elem_of_In, elem_of_map_to_list in Hin. congruence.
    + exfalso. eapply List.find_none in Hf.
      2:{ apply list_elem_of_In, elem_of_map_to_list. exact Hm. }
      simpl in Hf. rewrite String.eqb_refl in Hf. discriminate.
  - destruct (List.find _ _) as [[k v']|] eqn:Hf; [|done].
    apply List.find_some in Hf as [Hin Hk]. simpl in Hk.
    apply String.eqb_eq in Hk. subst k.
    apply list_elem_of_In, elem_of_map_to_list in Hin. congruence.
Qed.

Lemma object_spread_lookup (a b : gmap string string) (name : string) :
  object_spread [a; b] !! name =
  match b !! name with Some v => Some v | None => a !! name end.
Proof.
  unfold object_spread. simpl. rewrite lookup_union.
  destruct (b !! name) eqn:Hb; simpl.
  - by rewrite union_Some_l.
  - rewrite lookup_union, lookup_empty. destruct (a !! name); done.
Qed.

Lemma find_declared (pkg : PackageJson) (name : string) :
  find_dependency name (deps_of pkg) =
  (fun v => (name, v)) <$> declared_version pkg name.
Proof.
  unfold deps_of. rewrite find_dependency_lookup, object_spread_lookup.
  reflexivity.
Qed.

(** ** The generator computations *)

Section GenLaws.

Context {Cause OriginObject : Type}.
Local Abbreviation Gen := (Gen Cause OriginObject).

Lemma bind_ret_l {A B} (a : A) (k : A -> Gen B) : bind (ret a) k = k a.
Proof. unfold bind, ret. by destruct (k a). Qed.

Lemma bind_ret_r {A} (m : Gen A) : bind m ret = m.
Proof.
  destruct m as [t [e|a]]; simpl; [reflexivity|]. by rewrite app_nil_r.
Qed.

Lemma bind_assoc {A B C} (m : Gen A) (k : A -> Gen B) (h : B -> Gen C) :
  bind (bind m k) h = bind m (fun a => bind (k a) h).
Proof.
  destruct m as [t [e|a]]; simpl; [reflexivity|].
  destruct (k a) as [t' [e|b]]; simpl; [reflexivity|].
  destruct (h b) as [t'' r]. by rewrite app_assoc.
Qed.

(** A thrown value goes past the rest of the computation, to the handler
    of the enclosing [try]. *)
Lemma bind_throw {A B} (e : Thrown Cause) (k : A -> Gen B) :
  bind (throw e) k = throw e.
Proof. reflexivity. Qed.

Lemma try_catch_throw {A} (e : Thrown Cause) (h : Thrown Cause -> Gen A) :
  try_catch (throw e) h = h e.
Proof. unfold try_catch, throw. by destruct (h e). Qed.

Lemma try_catch_ret {A} (a : A) (h : Thrown Cause -> Gen A) :
  try_catch (ret a) h = ret a.
Proof. reflexivity. Qed.

End GenLaws.

(** ** Running the command symbolically *)

Ltac gen_simpl :=
  cbn [bind try_catch await call ret yield throw app fmap option_fmap
       option_map negb fst snd truthy_result with_CI
       semiver code hint bold process_env_CI process_cwd path_resolve
       path_dirname fs_readFile JSON_parse loadConfig parseConfig load].

Ltac use_facts :=
  repeat match goal with
  | H : ?x = ?y |- context [?x] =>
      tryif constr_eq x y then fail else rewrite H
  end.

Ltac unfold_run :=
  unfold events, trace, outcome, run, delay, manifest, complies, load_input,
    packageJsonFile, packageJsonPath,
    MINIMUM_VERSIONS.typescript, MINIMUM_VERSIONS.lsp, MINIMUM_VERSIONS.tada
    in *.

(** Follow the run along the facts at hand. *)
Ltac exec :=
  unfold_run;
  repeat (gen_simpl; rewrite ?find_declared; use_facts).

(** Split on the next answer of the world that the run depends on. *)
Ltac split_world :=
  match goal with
  | |- context [truthy_variable ?v] => destruct (truthy_variable v) eqn:?
  | |- context [fs_readFile ?w ?f ?e] => destruct (fs_readFile w f e) eqn:?
  | |- context [JSON_parse ?w ?t] => destruct (JSON_parse w t) eqn:?
  | |- context [declared_version ?p ?n] => destruct (declared_version p n) eqn:?
  | |- context [semiverComply ?s ?v ?m] => destruct (semiverComply s v m) eqn:?
  | |- context [loadConfig ?w] => destruct (loadConfig w) eqn:?
  | |- context [parseConfig ?w ?r] => destruct (parseConfig w r) eqn:?
  | |- context [truthy_schema ?s] => destruct (truthy_schema s) eqn:?
  | |- context [loadIntrospection ?l] =>
      destruct (loadIntrospection l) as [?|[?|]] eqn:?
  end.

(** Every run there is. *)
Ltac all_runs :=
  unfold_run;
  repeat (gen_simpl; rewrite ?find_declared; use_facts; try split_world).

Section Pipeline.

Context {Cause OriginObject RawPluginConfig Introspection : Type}.
Local Abbreviation World := (World Cause OriginObject RawPluginConfig Introspection).
Implicit Types (w : World) (pkg : PackageJson).

(** C1 (as amended). When all four checks succeed, the event sequence is the
    title event, then a Running and a Completed event for each of the four
    checks in order, of which only the fourth Completed event is final, then
    the success sentinel; and the run ends normally. *)
Theorem run_all_checks_pass w pkg cfg pc :
  checks_1_2_pass w pkg -> check_3_passes w cfg pc -> check_4_passes w cfg pc ->
  events (run w) =
    [title_event;
     Running TsVersion; Completed TsVersion false;
     Running Dependencies; Completed Dependencies false;
     Running Tsconfig; Completed Tsconfig false;
     Running Schema; Completed Schema true;
     Success] /\
  outcome (run w) = inr tt.
Proof.
  intros (Hm & Hts & Hlsp & Htada) (Hc & Hp & Hs) [i Hi].
  exec.
  destruct (fs_readFile _ _ _) as [|text] eqn:Hr; [discriminate|].
  destruct (declared_version pkg "typescript") eqn:D1; [|discriminate].
  destruct (declared_version pkg "@0no-co/graphqlsp") eqn:D2; [|discriminate].
  destruct (declared_version pkg "gql.tada") eqn:D3; [|discriminate].
  destruct (truthy_variable _); exec; done.
Qed.

(** X1. The checks along every run: a check starts only after the one before it
    has produced its terminal event, no two checks run at once, and no check
    is taken up again. *)
Lemma run_lifecycle w : lifecycle 0 false (events (run w)) = true.
Proof. all_runs; reflexivity. Qed.

(** X2. No check has two terminal events. *)
Lemma run_terminal_events w c :
  length (terminal_events c (events (run w))) <= 1.
Proof. all_runs; destruct c; simpl; lia. Qed.

(** A run never ends with a value a collaborator threw: what is thrown
    inside the command is wrapped. *)
Lemma run_throws_pipeline_errors w c : outcome (run w) <> inl (Opaque c).
Proof. all_runs; discriminate. Qed.

(** C3. Every failure mode of the first two checks (the manifest cannot be
    read, or the entry of a package is absent, or its version does not
    comply) ends the event sequence with the Failed event of that check and
    ends the run with a UserError, with no Running event of a later check.
    In the second check the language-service plugin comes first: when it
    does not comply the run ends with its error, whatever the manifest says
    about the core library. *)
Theorem checks_1_2_failures w :
  (forall f, occurs w f ->
     events (run w) = (events_reaching (failure_check f) ++ [Failed (failure_check f)])%list /\
     outcome (run w) = inl (UserError (failure_message w f)) /\
     forall c, check_number (failure_check f) < check_number c ->
               ~ In (Running c) (events (run w))) /\
  (forall pkg,
     manifest w = inr pkg ->
     complies w pkg "typescript" "4.1.0" = true ->
     complies w pkg "@0no-co/graphqlsp" "1.0.0" = false ->
     events (run w) = (events_reaching Dependencies ++ [Failed Dependencies])%list /\
     (outcome (run w) = inl (UserError (graphqlsp_not_found w)) \/
      outcome (run w) = inl (UserError (graphqlsp_out_of_date w)))).
Proof.
  split.
  - intros f Hf.
    assert (events (run w) = (events_reaching (failure_check f) ++ [Failed (failure_check f)])%list /\
            outcome (run w) = inl (UserError (failure_message w f))) as [He Ho].
    { destruct f as [|[]|[]]; simpl in Hf.
      - destruct Hf as [c Hm]. exec.
        destruct (fs_readFile _ _ _) as [|text] eqn:Hr;
          destruct (truthy_variable _); exec; done.
      - destruct Hf as (pkg & Hm & _ & Hd). exec.
        destruct (fs_readFile _ _ _) as [|text] eqn:Hr; [discriminate|].
        destruct (truthy_variable _); exec; done.
      - destruct Hf as (pkg & Hm & Hts & Hd). simpl in Hts.
        apply andb_true_iff in Hts as [Hts _]. exec.
        destruct (fs_readFile _ _ _) as [|text] eqn:Hr; [discriminate|].
        destruct (declared_version pkg "typescript") eqn:D1; [|discriminate].
        destruct (truthy_variable _); exec; done.
      - destruct Hf as (pkg & Hm & Hok & Hd). simpl in Hok.
        apply andb_true_iff in Hok as [Hts Hok].
        apply andb_true_iff in Hok as [Hlsp _]. exec.
        destruct (fs_readFile _ _ _) as [|text] eqn:Hr; [discriminate|].
        destruct (declared_version pkg "typescript") eqn:D1; [|discriminate].
        destruct (declared_version pkg "@0no-co/graphqlsp") eqn:D2;
          [|discriminate].
        destruct (truthy_variable _); exec; done.
      - destruct Hf as (pkg & v & Hm & _ & Hd & Hv). exec.
        destruct (fs_readFile _ _ _) as [|text] eqn:Hr; [discriminate|].
        destruct (truthy_variable _); exec; done.
      - destruct Hf as (pkg & v & Hm & Hts & Hd & Hv). simpl in Hts.
        apply andb_true_iff in Hts as [Hts _]. exec.
        destruct (fs_readFile _ _ _) as [|text] eqn:Hr; [discriminate|].
        destruct (declared_version pkg "typescript") eqn:D1; [|discriminate].
        destruct (truthy_variable _); exec; done.
      - destruct Hf as (pkg & v & Hm & Hok & Hd & Hv). simpl in Hok.
        apply andb_true_iff in Hok as [Hts Hok].
        apply andb_true_iff in Hok as [Hlsp _]. exec.
        destruct (fs_readFile _ _ _) as [|text] eqn:Hr; [discriminate|].
        destruct (declared_version pkg "typescript") eqn:D1; [|discriminate].
        destruct (declared_version pkg "@0no-co/graphqlsp") eqn:D2;
          [|discriminate].
        destruct (truthy_variable _); exec; done. }
    split; [exact He|]. split; [exact Ho|].
    intros c Hc. rewrite He.
    destruct f as [|[]|[]]; destruct c; simpl in Hc; try lia;
      simpl; intros Hin; repeat destruct Hin as [Hin|Hin]; done.
  - intros pkg Hm Hts Hlsp. exec.
    destruct (fs_readFile _ _ _) as [|text] eqn:Hr; [discriminate|].
    destruct (declared_version pkg "typescript") eqn:D1; [|discriminate].
    destruct (declared_version pkg "@0no-co/graphqlsp") eqn:D2.
    + destruct (truthy_variable _); exec;
        (split; [reflexivity | right; reflexivity]).
    + destruct (truthy_variable _); exec;
        (split; [reflexivity | left; reflexivity]).
Qed.

(** C4. In the third check, a failure of the resolver ends the run with an
    ExternalError that wraps the resolver's cause; a failure of the parse
    step ends it with an ExternalError that wraps the parser's cause, and no
    Failed event has been produced; a parsed configuration without a schema
    reference produces the Failed event of the check and ends the run with
    the UserError about the missing schema option. *)
Theorem check_3_failures w pkg :
  checks_1_2_pass w pkg ->
  (forall c,
     loadConfig w = inl c ->
     events (run w) = (events_reaching Tsconfig ++ [Failed Tsconfig])%list /\
     outcome (run w) = inl (ExternalError (tsconfig_not_found w) (Opaque c))) /\
  (forall cfg c,
     loadConfig w = inr cfg ->
     parseConfig w (pluginConfig cfg) = inl c ->
     events (run w) = events_reaching Tsconfig /\
     ~ In (Failed Tsconfig) (events (run w)) /\
     outcome (run w) = inl (ExternalError (plugin_config_invalid w) (Opaque c))) /\
  (forall cfg pc,
     loadConfig w = inr cfg ->
     parseConfig w (pluginConfig cfg) = inr pc ->
     truthy_schema (schema pc) = false ->
     events (run w) = (events_reaching Tsconfig ++ [Failed Tsconfig])%list /\
     outcome (run w) = inl (UserError (schema_option_not_found w))).
Proof.
  intros (Hm & Hts & Hlsp & Htada). exec.
  destruct (fs_readFile _ _ _) as [|text] eqn:Hr; [discriminate|].
  destruct (declared_version pkg "typescript") eqn:D1; [|discriminate].
  destruct (declared_version pkg "@0no-co/graphqlsp") eqn:D2; [|discriminate].
  destruct (declared_version pkg "gql.tada") eqn:D3; [|discriminate].
  split; [|split].
  - intros c Hc. destruct (truthy_variable _); exec; done.
  - intros cfg c Hc Hp.
    assert (forall es : list ComposeInput,
              es = events_reaching Tsconfig -> ~ In (Failed Tsconfig) es) as Hno.
    { intros es -> Hin. simpl in Hin. repeat destruct Hin as [Hin|Hin]; done. }
    destruct (truthy_variable _); exec; (split; [|split]); auto.
  - intros cfg pc Hc Hp Hs. destruct (truthy_variable _); exec; done.
Qed.

(** C5. In the fourth check, an exception of the schema loader ends the run
    with an ExternalError that carries the exception as its cause; an empty
    result ends it with a UserError of the same message text, which has no
    cause, and no Failed event of the check has been produced. *)
Theorem check_4_failures w pkg cfg pc :
  checks_1_2_pass w pkg -> check_3_passes w cfg pc ->
  (forall c,
     loadIntrospection (load w (load_input w cfg pc)) = inl c ->
     events (run w) = events_reaching Schema /\
     outcome (run w) = inl (ExternalError failed_to_load_schema (Opaque c))) /\
  (loadIntrospection (load w (load_input w cfg pc)) = inr None ->
     events (run w) = events_reaching Schema /\
     ~ In (Failed Schema) (events (run w)) /\
     outcome (run w) = inl (UserError failed_to_load_schema)).
Proof.
  intros (Hm & Hts & Hlsp & Htada) (Hc & Hp & Hs). exec.
  destruct (fs_readFile _ _ _) as [|text] eqn:Hr; [discriminate|].
  destruct (declared_version pkg "typescript") eqn:D1; [|discriminate].
  destruct (declared_version pkg "@0no-co/graphqlsp") eqn:D2; [|discriminate].
  destruct (declared_version pkg "gql.tada") eqn:D3; [|discriminate].
  split.
  - intros c Hi. destruct (truthy_variable _); exec; done.
  - intros Hi.
    assert (forall es : list ComposeInput,
              es = events_reaching Schema -> ~ In (Failed Schema) es) as Hno.
    { intros es -> Hin. simpl in Hin. repeat destruct Hin as [Hin|Hin]; done. }
    destruct (truthy_variable _); exec; (split; [|split]); auto.
Qed.

(** C7. The entries every lookup of the command searches are those of the
    merge of the regular with the development dependencies, in which the
    later source wins: a package declared by the development dependencies
    is found with that version, also when the regular ones declare it too,
    and the first check judges that version. *)
Theorem deps_later_source_wins w pkg name :
  deps_of pkg = map_to_list (devDependencies pkg ∪ dependencies pkg) /\
  (forall v_dev,
     devDependencies pkg !! name = Some v_dev ->
     find_dependency name (deps_of pkg) = Some (name, v_dev)) /\
  (devDependencies pkg !! name = None ->
   find_dependency name (deps_of pkg) =
   (fun v => (name, v)) <$> dependencies pkg !! name) /\
  (forall v_dev,
     manifest w = inr pkg ->
     devDependencies pkg !! "typescript" = Some v_dev ->
     events (run w) !! 2 =
     Some (if semiverComply (semiver w) v_dev "4.1.0"
           then Completed TsVersion false
           else Failed TsVersion)).
Proof.
  split; [|split; [|split]].
  - unfold deps_of, Object_entries, object_spread. simpl.
    by rewrite (right_id_L ∅ (∪)).
  - intros v Hv. rewrite find_declared. unfold declared_version. by rewrite Hv.
  - intros Hv. rewrite find_declared. unfold declared_version. by rewrite Hv.
  - intros v Hm Hv.
    assert (declared_version pkg "typescript" = Some v) as Hd.
    { unfold declared_version. by rewrite Hv. }
    exec.
    destruct (fs_readFile _ _ _) as [|text] eqn:Hr; [discriminate|].
    destruct (semiverComply (semiver w) v "4.1.0") eqn:Hc;
      all_runs; reflexivity.
Qed.

(** C8. With the [CI] variable set, a pacing delay resolves at once and no
    timer is started.  The run with the delays disabled yields the same
    events and ends the same way as the run with the delays enabled: the two
    differ in their timers only. *)
Theorem delay_affects_timing_only w (on off : option string) :
  truthy_variable on = true ->
  truthy_variable off = false ->
  (forall ms, delay (with_CI on w) ms = ret tt) /\
  forallb (fun e => negb (is_timer e)) (trace (run (with_CI on w))) = true /\
  events (run (with_CI on w)) = events (run (with_CI off w)) /\
  outcome (run (with_CI on w)) = outcome (run (with_CI off w)) /\
  trace (run (with_CI on w)) = untimed (trace (run (with_CI off w))).
Proof.
  intros Hon Hoff. split.
  - intros ms. unfold delay. simpl. by rewrite Hon.
  - all_runs; repeat split; reflexivity.
Qed.

(** C9. A manifest that is there but cannot be parsed fails the first check
    as a manifest that cannot be read does: the events are the title, the
    Running and the Failed event of the first check, and the run ends with
    the UserError that says the file was not found in the current working
    directory.  A run in which reading the file fails for any reason has the
    same events and ends the same way. *)
Theorem malformed_manifest_as_missing w text c :
  fs_readFile w (packageJsonFile w) "utf-8" = inr text ->
  JSON_parse w text = inl c ->
  events (run w) = [title_event; Running TsVersion; Failed TsVersion] /\
  outcome (run w) = inl (UserError (manifest_not_found w)) /\
  (exists rest,
     manifest_not_found w =
     "A " +:+ code w "package.json" +:+
     " file was not found in the current working directory." +:+ rest) /\
  (forall (w' : World) c',
     fs_readFile w' (packageJsonFile w') "utf-8" = inl c' ->
     code w' = code w -> hint w' = hint w ->
     events (run w') = events (run w) /\
     outcome (run w') = outcome (run w)).
Proof.
  intros Hr Hp.
  assert (events (run w) = [title_event; Running TsVersion; Failed TsVersion] /\
          outcome (run w) = inl (UserError (manifest_not_found w))) as [He Ho].
  { exec. destruct (truthy_variable _); exec; done. }
  split; [exact He|]. split; [exact Ho|]. split.
  - eexists. reflexivity.
  - intros w' c' Hr' Hcode Hhint. rewrite He, Ho.
    assert (manifest_not_found w = manifest_not_found w') as ->.
    { unfold manifest_not_found. by rewrite Hcode, Hhint. }
    clear Hr Hp He Ho Hcode Hhint.
    exec. destruct (truthy_variable _); exec; done.
Qed.

(** C10. Whatever the outcome, a run first yields the title event and then
    the Running event of the first check, before it starts a timer, reads a
    file or calls a collaborator; so every event sequence begins with these
    two events. *)
Theorem run_begins_with_title w :
  exists rest,
    trace (run w) = Yield title_event :: Yield (Running TsVersion) :: rest /\
    events (run w) = title_event :: Running TsVersion :: omap yielded rest.
Proof.
  unfold events, trace, run. cbn [bind yield app].
  destruct (bind (delay w delay_default) _) as [rest r].
  exists rest. split; reflexivity.
Qed.

End Pipeline.

(** ** The sample projects *)

Lemma healthy_checks_pass ci :
  checks_1_2_pass (Sample.healthy ci) Sample.manifest_ok /\
  check_3_passes (Sample.healthy ci) Sample.config_ok Sample.plugin_ok /\
  check_4_passes (Sample.healthy ci) Sample.config_ok Sample.plugin_ok.
Proof.
  split; [|split].
  - repeat split; vm_compute; reflexivity.
  - repeat split; vm_compute; reflexivity.
  - exists tt. reflexivity.
Qed.

(** C1, as stated, fails: the event sequence of a run in which all four
    checks succeed does not start with the Running event of the first
    check. *)
Lemma run_healthy_not_only_checks :
  checks_1_2_pass (Sample.healthy None) Sample.manifest_ok /\
  check_3_passes (Sample.healthy None) Sample.config_ok Sample.plugin_ok /\
  check_4_passes (Sample.healthy None) Sample.config_ok Sample.plugin_ok /\
  events (run (Sample.healthy None)) <>
    [Running TsVersion; Completed TsVersion false;
     Running Dependencies; Completed Dependencies false;
     Running Tsconfig; Completed Tsconfig false;
     Running Schema; Completed Schema true;
     Success].
Proof.
  destruct (healthy_checks_pass None) as (H12 & H3 & H4).
  split; [exact H12|]. split; [exact H3|]. split; [exact H4|].
  vm_compute. discriminate.
Qed.

Lemma run_all_checks_pass_witness :
  events (run (Sample.healthy None)) =
    [title_event;
     Running TsVersion; Completed TsVersion false;
     Running Dependencies; Completed Dependencies false;
     Running Tsconfig; Completed Tsconfig false;
     Running Schema; Completed Schema true;
     Success] /\
  outcome (run (Sample.healthy None)) = inr tt.
Proof.
  apply (run_all_checks_pass (Sample.healthy None) Sample.manifest_ok
           Sample.config_ok Sample.plugin_ok).
  - repeat split; vm_compute; reflexivity.
  - repeat split; vm_compute; reflexivity.
  - exists tt. reflexivity.
Defined.

Lemma checks_1_2_failures_witness :
  occurs (Sample.with_manifest (Sample.manifest_without "@0no-co/graphqlsp"))
    (EntryAbsent GraphQLSP) /\
  events (run (Sample.with_manifest
                 (Sample.manifest_without "@0no-co/graphqlsp"))) =
    [title_event; Running TsVersion; Completed TsVersion false;
     Running Dependencies; Failed Dependencies] /\
  outcome (run (Sample.with_manifest
                  (Sample.manifest_without "@0no-co/graphqlsp"))) =
    inl (UserError
           (graphqlsp_not_found
              (Sample.with_manifest
                 (Sample.manifest_without "@0no-co/graphqlsp")))) /\
  declared_version Sample.manifest_typescript_only "gql.tada" = None /\
  events (run (Sample.with_manifest Sample.manifest_typescript_only)) =
    [title_event; Running TsVersion; Completed TsVersion false;
     Running Dependencies; Failed Dependencies].
Proof.
  set (w := Sample.with_manifest
              (Sample.manifest_without "@0no-co/graphqlsp")).
  set (w' := Sample.with_manifest Sample.manifest_typescript_only).
  assert (occurs w (EntryAbsent GraphQLSP)) as Hf.
  { exists (Sample.manifest_without "@0no-co/graphqlsp").
    repeat split; vm_compute; reflexivity. }
  split; [exact Hf|].
  destruct (checks_1_2_failures w) as [Hmodes _].
  destruct (Hmodes (EntryAbsent GraphQLSP) Hf) as (He & Ho & _).
  split; [exact He|]. split; [exact Ho|]. split; [reflexivity|].
  destruct (checks_1_2_failures w') as [_ Hplugin].
  assert (manifest w' = inr Sample.manifest_typescript_only) as Hm
    by (vm_compute; reflexivity).
  assert (complies w' Sample.manifest_typescript_only "typescript" "4.1.0"
          = true) as Hts by (vm_compute; reflexivity).
  assert (complies w' Sample.manifest_typescript_only "@0no-co/graphqlsp"
            "1.0.0" = false) as Hlsp by (vm_compute; reflexivity).
  exact (proj1 (Hplugin _ Hm Hts Hlsp)).
Defined.

Lemma check_3_failures_witness :
  outcome (run Sample.missing_tsconfig) =
    inl (ExternalError (tsconfig_not_found Sample.missing_tsconfig)
           (Opaque "tsconfig not found")) /\
  events (run Sample.invalid_plugin) = events_reaching Tsconfig /\
  outcome (run Sample.no_schema_option) =
    inl (UserError (schema_option_not_found Sample.no_schema_option)).
Proof.
  split; [|split].
  - assert (checks_1_2_pass Sample.missing_tsconfig Sample.manifest_ok) as H.
    { repeat split; vm_compute; reflexivity. }
    destruct (check_3_failures _ _ H) as (H1 & _ & _).
    apply (H1 "tsconfig not found" eq_refl).
  - assert (checks_1_2_pass Sample.invalid_plugin Sample.manifest_ok) as H.
    { repeat split; vm_compute; reflexivity. }
    destruct (check_3_failures _ _ H) as (_ & H2 & _).
    apply (H2 Sample.config_ok "invalid plugin configuration" eq_refl eq_refl).
  - assert (checks_1_2_pass Sample.no_schema_option Sample.manifest_ok) as H.
    { repeat split; vm_compute; reflexivity. }
    destruct (check_3_failures _ _ H) as (_ & _ & H3).
    apply (H3 Sample.config_ok Sample.plugin_without_schema
             eq_refl eq_refl eq_refl).
Defined.

Lemma check_4_failures_witness :
  outcome (run Sample.unreachable_schema) =
    inl (ExternalError failed_to_load_schema (Opaque "ECONNREFUSED")) /\
  events (run Sample.empty_schema) = events_reaching Schema /\
  outcome (run Sample.empty_schema) = inl (UserError failed_to_load_schema).
Proof.
  split.
  - assert (checks_1_2_pass Sample.unreachable_schema Sample.manifest_ok) as H.
    { repeat split; vm_compute; reflexivity. }
    assert (check_3_passes Sample.unreachable_schema Sample.config_ok
              Sample.plugin_ok) as H'.
    { repeat split; vm_compute; reflexivity. }
    destruct (check_4_failures _ _ _ _ H H') as (H1 & _).
    apply (H1 "ECONNREFUSED" eq_refl).
  - assert (checks_1_2_pass Sample.empty_schema Sample.manifest_ok) as H.
    { repeat split; vm_compute; reflexivity. }
    assert (check_3_passes Sample.empty_schema Sample.config_ok
              Sample.plugin_ok) as H'.
    { repeat split; vm_compute; reflexivity. }
    destruct (check_4_failures _ _ _ _ H H') as (_ & H2).
    destruct (H2 eq_refl) as (He & _ & Ho).
    split; [exact He | exact Ho].
Defined.

Lemma deps_later_source_wins_witness :
  dependencies Sample.manifest_ok !! "typescript" = Some "^3.9.0" /\
  find_dependency "typescript" (deps_of Sample.manifest_ok) =
    Some ("typescript", "~5.3.3") /\
  events (run (Sample.healthy None)) !! 2 = Some (Completed TsVersion false).
Proof.
  destruct (deps_later_source_wins (Sample.healthy None) Sample.manifest_ok
              "typescript") as (_ & Hdev & _ & Hrun).
  split; [reflexivity|]. split.
  - apply (Hdev "~5.3.3"). reflexivity.
  - apply (Hrun "~5.3.3"); reflexivity.
Defined.

Lemma delay_affects_timing_only_witness :
  events (run (with_CI (Some "true") (Sample.healthy None))) =
  events (run (with_CI None (Sample.healthy None))) /\
  outcome (run (with_CI (Some "true") (Sample.healthy None))) =
  outcome (run (with_CI None (Sample.healthy None))).
Proof.
  destruct (delay_affects_timing_only (Sample.healthy None) (Some "true") None
              eq_refl eq_refl) as (_ & _ & He & Ho & _).
  split; [exact He | exact Ho].
Defined.

Lemma malformed_manifest_as_missing_witness :
  events (run Sample.malformed_manifest) =
    [title_event; Running TsVersion; Failed TsVersion] /\
  events (run Sample.missing_manifest) = events (run Sample.malformed_manifest) /\
  outcome (run Sample.missing_manifest) = outcome (run Sample.malformed_manifest).
Proof.
  destruct (malformed_manifest_as_missing Sample.malformed_manifest
              "{" "SyntaxError" eq_refl eq_refl) as (He & _ & _ & Hsame).
  split; [exact He|].
  apply (Hsame Sample.missing_manifest "ENOENT"); reflexivity.
Defined.

(** C2. The code leaves a check without its terminal event.  When the plugin
    configuration does not parse, the third check has produced its Running
    event and the run ends with the error: neither a Completed nor a Failed
    event of that check is in the event sequence.  The fourth check is left
    the same way when the schema loader throws or answers with nothing. *)
Theorem run_leaves_check_without_terminal_event :
  (events (run Sample.invalid_plugin) = events_reaching Tsconfig /\
   outcome (run Sample.invalid_plugin) =
     inl (ExternalError (plugin_config_invalid Sample.invalid_plugin)
            (Opaque "invalid plugin configuration")) /\
   In (Running Tsconfig) (events (run Sample.invalid_plugin)) /\
   terminal_events Tsconfig (events (run Sample.invalid_plugin)) = []) /\
  (In (Running Schema) (events (run Sample.unreachable_schema)) /\
   terminal_events Schema (events (run Sample.unreachable_schema)) = []) /\
  (In (Running Schema) (events (run Sample.empty_schema)) /\
   terminal_events Schema (events (run Sample.empty_schema)) = []).
Proof.
  split; [|split].
  - split; [vm_compute; reflexivity|].
    split; [vm_compute; reflexivity|].
    split; [vm_compute; auto 12 | vm_compute; reflexivity].
  - split; [vm_compute; auto 12 | vm_compute; reflexivity].
  - split; [vm_compute; auto 12 | vm_compute; reflexivity].
Qed.

(** ** Further properties of the command *)

(** Every run there is, for a statement that names the run several times:
    the run is followed once, with the statement set aside. *)
Ltac all_runs_of w :=
  pattern (run w);
  match goal with
  | |- ?P _ =>
      let Q := fresh "Q" in
      set (Q := P); all_runs; subst Q; cbv beta
  end.

Section MorePipeline.

Context {Cause OriginObject RawPluginConfig Introspection : Type}.
Local Abbreviation World := (World Cause OriginObject RawPluginConfig Introspection).
Implicit Types (w : World) (pkg : PackageJson).


(** X4. The success sentinel is in the event sequence exactly when the run
    ends normally.  A Failed event, when there is one, is the last event,
    and the run ends with an error. *)
Theorem run_success_or_failure w :
  (In Success (events (run w)) <-> outcome (run w) = inr tt) /\
  (forall c, In (Failed c) (events (run w)) ->
     last (events (run w)) = Some (Failed c) /\
     exists e, outcome (run w) = inl e).
Proof.
  all_runs_of w; (split; [split|]).
  all: try (intros _; simpl; auto 12; fail).
  all: try (intros H; discriminate H).
  all: try (intros H; vm_compute in H; exfalso;
            repeat destruct H as [H|H]; try discriminate H; exact H).
  all: intros chk H; simpl in H;
    repeat destruct H as [H|H]; try discriminate H; try (exfalso; exact H);
    destruct chk; try discriminate H;
    (split; [reflexivity | eexists; reflexivity]).
Qed.

(** X5. Every event sequence is a prefix of the sequence of the run in which
    every check passes, followed by nothing or by the Failed event of the
    check whose Running event ends the prefix. *)
Theorem run_events_prefix w :
  exists n tail,
    events (run w) = (take n all_pass_events ++ tail)%list /\
    (tail = [] \/
     exists c, tail = [Failed c] /\
               last (take n all_pass_events) = Some (Running c)).
Proof.
  all_runs;
    first
      [ exists 10, []; split; [reflexivity | left; reflexivity]
      | exists 8, []; split; [reflexivity | left; reflexivity]
      | exists 6, []; split; [reflexivity | left; reflexivity]
      | exists 2, [Failed TsVersion]; split;
        [reflexivity | right; exists TsVersion; split; reflexivity]
      | exists 4, [Failed Dependencies]; split;
        [reflexivity | right; exists Dependencies; split; reflexivity]
      | exists 6, [Failed Tsconfig]; split;
        [reflexivity | right; exists Tsconfig; split; reflexivity] ].
Qed.

(** X6. Every run reads one file, once: the manifest in the working
    directory, as UTF-8. *)
Theorem run_reads_manifest_once w :
  List.filter is_read (trace (run w)) = [ReadFile (packageJsonFile w) "utf-8"].
Proof. all_runs; reflexivity. Qed.

(** X7. The configuration is resolved only after the second check has
    completed; the schema loader is called only after the third check has
    completed, and only with a schema origin that is truthy. *)
Theorem run_calls_collaborators_when_reached w :
  (In LoadConfig (trace (run w)) ->
   In (Completed Dependencies false) (events (run w))) /\
  (forall input, In (LoadIntrospection input) (trace (run w)) ->
     In (Completed Tsconfig false) (events (run w)) /\
     truthy_schema (origin input) = true).
Proof.
  all_runs_of w; split.
  all: try (intros H; simpl in H;
            repeat destruct H as [H|H]; try discriminate H; try (exfalso; exact H);
            simpl; auto 12; fail).
  all: intros input H; simpl in H;
    repeat destruct H as [H|H]; try discriminate H; try (exfalso; exact H);
    injection H as <-; simpl; (split; [auto 12 | assumption]).
Qed.

(** X8. Without the [CI] variable, every Running event is directly followed
    by a timer of 700 ms, before the work of the check. *)
Theorem run_paced w :
  truthy_variable (process_env_CI w) = false ->
  paced (trace (run w)) = true.
Proof. intros HCI. all_runs; reflexivity. Qed.

(** X9. A run depends on the manifest through the versions it declares for
    the three packages only: with a manifest that declares the same versions
    for them, the run is the same. *)
Theorem run_depends_on_three_packages w pkg pkg' :
  manifest w = inr pkg ->
  (forall p, declared_version pkg' (package_name p) =
             declared_version pkg (package_name p)) ->
  run (with_JSON_parse (fun _ => inr pkg') w) = run w.
Proof.
  intros Hm Hsame.
  pose proof (Hsame TypeScript) as H1.
  pose proof (Hsame GraphQLSP) as H2.
  pose proof (Hsame Tada) as H3.
  simpl in H1, H2, H3. clear Hsame.
  unfold with_JSON_parse. all_runs; try reflexivity; discriminate.
Qed.

End MorePipeline.

Section MoreVersionPattern.

#[local] Arguments String.append !_ _ /.

Lemma match_here_no_digit (s : string) :
  starts_with_digit s = false -> match_here s = None.
Proof.
  intros Hs. unfold match_here, digits_then_dot.
  by rewrite (digits_prefix_no_digit s Hs).
Qed.

Lemma String_match_skips_non_digits (pre s : string) :
  has_digit pre = false -> String_match (pre +:+ s) = String_match s.
Proof.
  induction pre as [|x pre IH]; [reflexivity|].
  intros H. simpl in H. apply orb_false_iff in H as [Hx Hpre].
  change (String x pre +:+ s) with (String x (pre +:+ s)).
  rewrite (String_match_unfold (String x (pre +:+ s))).
  rewrite (match_here_no_digit (String x (pre +:+ s)) Hx).
  exact (IH Hpre).
Qed.

Lemma match_here_triple (m post : string) :
  dotted_triple m -> starts_with_digit post = false ->
  match_here (m +:+ post) = Some m.
Proof.
  intros (a & b & c & -> & Ha & Hb & Hc) Hpost.
  rewrite !string_app_assoc.
  rewrite (match_here_complete a b c post Ha Hb Hc).
  by rewrite (digits_prefix_no_digit post Hpost), string_app_nil_r.
Qed.

Lemma String_match_triple (m post : string) :
  dotted_triple m -> starts_with_digit post = false ->
  String_match (m +:+ post) = Some m.
Proof.
  intros Hm Hpost. rewrite String_match_unfold.
  by rewrite (match_here_triple m post Hm Hpost).
Qed.

Lemma count_dots_app (a b : string) :
  count_dots (a +:+ b) = count_dots a + count_dots b.
Proof. induction a as [|x a IH]; simpl; [reflexivity | rewrite IH; lia]. Qed.

Lemma dotted_triple_dots (m : string) : dotted_triple m -> 2 <= count_dots m.
Proof.
  intros (a & b & c & -> & _). rewrite !count_dots_app. simpl. lia.
Qed.

Lemma version_triple_dotted (s : string) (p : Version) :
  version_triple s = Some p -> dotted_triple s.
Proof.
  unfold version_triple.
  destruct (digits_then_dot s) as [[a r1]|] eqn:H1; [|done].
  destruct (digits_then_dot r1) as [[b r2]|] eqn:H2; [|done].
  destruct (digits_prefix r2) as [c post] eqn:H3.
  apply digits_then_dot_spec in H1 as (-> & Ha).
  apply digits_then_dot_spec in H2 as (-> & Hb).
  apply digits_prefix_spec in H3 as (-> & Hc & _).
  destruct c as [|x c]; [done|]. destruct post; [|done]. intros _.
  exists a, b, (String x c). rewrite string_app_nil_r.
  split; [reflexivity|]. split; [exact Ha|]. split; [exact Hb|].
  split; [discriminate | exact Hc].
Qed.

Lemma version_le_trans (p q r : Version) :
  version_le p q -> version_le q r -> version_le p r.
Proof.
  destruct p as [[a b] c], q as [[d e] f], r as [[g h] i].
  unfold version_le. lia.
Qed.

(** X10. A range operator, or any other text without a digit, in front of a
    version string does not change whether it complies. *)
Theorem semiverComply_skips_prefix (semiver : string -> string -> Z)
    (pre version minimum : string) :
  has_digit pre = false ->
  semiverComply semiver (pre +:+ version) minimum =
  semiverComply semiver version minimum.
Proof.
  intros Hpre. unfold semiverComply.
  by rewrite (String_match_skips_non_digits pre version Hpre).
Qed.

(** X11. A dotted triple followed by text that does not start with a digit
    (a pre-release tag, build metadata) is compared as the triple alone. *)
Theorem semiverComply_ignores_suffix (semiver : string -> string -> Z)
    (m post minimum : string) :
  dotted_triple m -> starts_with_digit post = false ->
  semiverComply semiver (m +:+ post) minimum = (0 <=? semiver m minimum)%Z.
Proof.
  intros Hm Hpost. unfold semiverComply.
  by rewrite (String_match_triple m post Hm Hpost).
Qed.

(** X12. A version string with fewer than two dots ([latest], [*], a bare
    major or major.minor version) never complies, whatever the minimum. *)
Theorem semiverComply_needs_two_dots (semiver : string -> string -> Z)
    (version minimum : string) :
  count_dots version < 2 ->
  semiverComply semiver version minimum = false.
Proof.
  intros Hdots. unfold semiverComply.
  destruct (String_match version) as [m|] eqn:Hm; [|reflexivity].
  exfalso.
  apply String_match_sound in Hm as (pre & post & -> & Htriple & _).
  apply dotted_triple_dots in Htriple.
  rewrite !count_dots_app in Hdots. lia.
Qed.

(** X13. What the pattern extracts from a version string is itself matched
    in full by the pattern. *)
Theorem String_match_fixed_point (s m : string) :
  String_match s = Some m -> String_match m = Some m.
Proof.
  intros (pre & post & _ & Htriple & _)%String_match_sound.
  rewrite <- (string_app_nil_r m) at 1.
  by apply String_match_triple.
Qed.

(** X14. For a comparison that orders dotted triples numerically, compliance
    is upward closed: when a version complies with a minimum, so does every
    version that is at least as high. *)
Theorem semiverComply_upward_closed (semiver : string -> string -> Z)
    (v v' minimum : string) (p p' q : Version) :
  semiver_numeric_order semiver ->
  version_triple v = Some p ->
  version_triple v' = Some p' ->
  version_triple minimum = Some q ->
  version_le p p' ->
  semiverComply semiver v minimum = true ->
  semiverComply semiver v' minimum = true.
Proof.
  intros Hnum Hv Hv' Hq Hle.
  pose proof (version_triple_dotted v p Hv) as Hd.
  pose proof (version_triple_dotted v' p' Hv') as Hd'.
  unfold semiverComply.
  rewrite <- (string_app_nil_r v) at 1. rewrite <- (string_app_nil_r v') at 1.
  rewrite (String_match_triple v "" Hd eq_refl).
  rewrite (String_match_triple v' "" Hd' eq_refl).
  rewrite (Hnum v minimum p q Hv Hq), (Hnum v' minimum p' q Hv' Hq).
  rewrite !version_compare_le. intros Hqp. by eapply version_le_trans.
Qed.

End MoreVersionPattern.

(** X15. The merged dependency entries name every package that either mapping
    of the manifest declares, each once. *)
Theorem deps_of_keys (pkg : PackageJson) :
  NoDup (map fst (deps_of pkg)) /\
  forall name,
    In name (map fst (deps_of pkg)) <->
    is_Some (dependencies pkg !! name) \/ is_Some (devDependencies pkg !! name).
Proof.
  assert (deps_of pkg = map_to_list (devDependencies pkg ∪ dependencies pkg))
    as ->.
  { unfold deps_of, Object_entries, object_spread. simpl.
    by rewrite (right_id_L ∅ (∪)). }
  split; [apply NoDup_fst_map_to_list|].
  intros name. rewrite <- list_elem_of_In, list_elem_of_fmap. split.
  - intros ([k v] & -> & Hin%elem_of_map_to_list). simpl.
    apply lookup_union_Some_raw in Hin as [H|[_ H]]; [right | left];
      by eexists.
  - intros H.
    assert (is_Some ((devDependencies pkg ∪ dependencies pkg) !! name))
      as [v Hv].
    { rewrite lookup_union_is_Some. tauto. }
    exists (name, v). split; [reflexivity|]. by apply elem_of_map_to_list.
Qed.

(** ** The further properties on the sample projects *)

Lemma run_paced_witness : paced (trace (run (Sample.healthy None))) = true.
Proof. apply (run_paced (Sample.healthy None)). reflexivity. Defined.

Lemma run_depends_on_three_packages_witness :
  run (with_JSON_parse (fun _ => inr MoreSamples.manifest_with_react)
         (Sample.healthy None)) =
  run (Sample.healthy None).
Proof.
  apply (run_depends_on_three_packages (Sample.healthy None)
           Sample.manifest_ok MoreSamples.manifest_with_react).
  - vm_compute. reflexivity.
  - intros p. destruct p; vm_compute; reflexivity.
Defined.

Lemma semiverComply_skips_prefix_witness :
  semiverComply semiver_triples ("^" +:+ "5.3.3") "4.1.0" =
  semiverComply semiver_triples "5.3.3" "4.1.0".
Proof.
  apply (semiverComply_skips_prefix semiver_triples "^" "5.3.3" "4.1.0").
  reflexivity.
Defined.

Lemma semiverComply_ignores_suffix_witness :
  semiverComply semiver_triples ("4.9.5" +:+ "-beta.1") "4.1.0" =
  (0 <=? semiver_triples "4.9.5" "4.1.0")%Z.
Proof.
  apply (semiverComply_ignores_suffix semiver_triples "4.9.5" "-beta.1" "4.1.0").
  - exists "4", "9", "5". split; [reflexivity|].
    repeat split; try discriminate; reflexivity.
  - reflexivity.
Defined.

Lemma semiverComply_needs_two_dots_witness :
  semiverComply semiver_triples "^5" "4.1.0" = false.
Proof.
  apply (semiverComply_needs_two_dots semiver_triples "^5" "4.1.0").
  vm_compute. lia.
Defined.

Lemma String_match_fixed_point_witness :
  String_match "4.9.5" = Some "4.9.5".
Proof.
  apply (String_match_fixed_point "^4.9.5-beta.1" "4.9.5"). reflexivity.
Defined.

Lemma semiverComply_upward_closed_witness :
  semiverComply semiver_triples "5.3.3" "4.1.0" = true.
Proof.
  apply (semiverComply_upward_closed semiver_triples "4.1.0" "5.3.3" "4.1.0"
           (4, 1, 0)%N (5, 3, 3)%N (4, 1, 0)%N).
  - exact semiver_triples_numeric.
  - reflexivity.
  - reflexivity.
  - reflexivity.
  - simpl. lia.
  - reflexivity.
Defined.
